(** * RNSwephImpl: the React Native binding of the Swiss Ephemeris

    A shallow embedding of [RNSwephImpl.h] / [RNSwephImpl.cpp] and the
    properties of the Julian Day conversion stated for it.

    The C++ class [facebook::react::RNSwephImpl] has no data member, an
    empty constructor and one method,

      double swe_julday(double year, double month, double day,
                        double hour, double gregflag)

    whose body is the single statement [return 0.0;].

    - C++ [double] is the kernel's binary64 [float] (PrimFloat).
    - A C++ call either returns a value or leaves by an exception, and it
      may read and write the program's mutable state.  Calls are therefore
      computations [Exec A] over a heap, yielding an [outcome] and the
      final heap. *)

From Stdlib Require Import ZArith Bool List Floats.

Local Open Scope Z_scope.

(** ** Execution model of a C++ call *)

(** Modelled from the spec: the error taxonomy of the converter (section 7).
    The source declares and throws none of them. *)
Inductive exception : Set :=
| InvalidDateError
| DomainError
| InvalidArgumentError.

(** How a call ends: by [return v;] or by an exception that escapes.
    (The source has no [throw]; [Raised] is what the error claims are
    stated against.) *)
Inductive outcome (A : Type) : Type :=
| Returned (v : A)
| Raised (e : exception).

Arguments Returned {A} v.
Arguments Raised {A} e.

Section Execution.
(** Everything a call could observe or change besides its arguments:
    globals, the fields of objects, files.  Left abstract. *)
Context {Heap : Type}.

Definition Exec (A : Type) : Type := Heap -> outcome A * Heap.

(** [return v;] *)
Definition ret {A : Type} (v : A) : Exec A :=
  fun h => (Returned v, h).

(** Sequencing; an exception skips the rest. *)
Definition bind {A B : Type} (c : Exec A) (k : A -> Exec B) : Exec B :=
  fun h =>
    match c h with
    | (Returned v, h') => k v h'
    | (Raised e, h') => (Raised e, h')
    end.

(** The outcome and the final heap of a run. *)
Definition result {A : Type} (c : Exec A) (h : Heap) : outcome A := fst (c h).
Definition final {A : Type} (c : Exec A) (h : Heap) : Heap := snd (c h).
End Execution.

Arguments Exec Heap A : clear implicits.

Notation "x <- c ;; k" := (bind c (fun x => k))
  (at level 61, c at next level, right associativity).

(** ** The class *)

(** [class RNSwephImpl]: no data member. *)
Record RNSwephImpl : Set := mkRNSwephImpl { }.

Section Methods.
Context {Heap : Type}.

(** [RNSwephImpl::RNSwephImpl() {}] *)
Definition new_RNSwephImpl : Exec Heap RNSwephImpl :=
  ret mkRNSwephImpl.

(** [double RNSwephImpl::swe_julday(double year, double month, double day,
                                    double hour, double gregflag)
     { return 0.0; }] *)
Definition swe_julday (this : RNSwephImpl)
           (year month day hour gregflag : float) : Exec Heap float :=
  ret 0%float.
End Methods.

(** ** The conversion of the specification *)

(** Modelled from the spec: CalendarSystem (section 3). *)
Inductive CalendarSystem : Set := JULIAN | GREGORIAN.

(** Modelled from the spec: CalendarDate (section 3): integer year, month
    and day, and the hour as a real (a double at the native boundary). *)
Record CalendarDate : Set := mkDate {
  year : Z;
  month : Z;
  day : Z;
  hour : float
}.

(** Modelled from the spec: the calendar flag is a small integer mapped to
    {JULIAN, GREGORIAN} (section 6).  The values are the Swiss Ephemeris
    ones, SE_JUL_CAL = 0 and SE_GREG_CAL = 1, from the header the source
    does not include. *)
Definition SE_JUL_CAL : float := 0%float.
Definition SE_GREG_CAL : float := 1%float.

Definition gregflag_of (s : CalendarSystem) : float :=
  match s with
  | JULIAN => SE_JUL_CAL
  | GREGORIAN => SE_GREG_CAL
  end.

(** The integer-to-double conversion of the native boundary
    (round to nearest even, as a C++ [static_cast<double>]). *)
Definition Z2double (z : Z) : float :=
  SF2Prim (binary_normalize prec emax z 0 false).

(** Modelled from the spec: toJulianDay(date, system), "implemented as
    swe_julday": the fields of the date and the flag are handed to
    [RNSwephImpl::swe_julday]. *)
Definition toJulianDay {Heap : Type} (this : RNSwephImpl)
           (d : CalendarDate) (s : CalendarSystem) : Exec Heap float :=
  swe_julday this (Z2double (year d)) (Z2double (month d)) (Z2double (day d))
             (hour d) (gregflag_of s).

(** Modelled from the spec: the leap-year rule of each calendar. *)
Definition is_leap_year (s : CalendarSystem) (y : Z) : bool :=
  match s with
  | JULIAN => y mod 4 =? 0
  | GREGORIAN => (y mod 4 =? 0) && (negb (y mod 100 =? 0) || (y mod 400 =? 0))
  end.

Definition days_in_month (s : CalendarSystem) (y m : Z) : Z :=
  if m =? 2 then (if is_leap_year s y then 29 else 28)
  else if (m =? 4) || (m =? 6) || (m =? 9) || (m =? 11) then 30
  else 31.

(** Modelled from the spec: the input constraints of toJulianDay
    (section 4.1): month in [1,12], day valid for the month and year under
    the system's leap-year rule, hour in [0,24), any integer year. *)
Definition valid_date (d : CalendarDate) (s : CalendarSystem) : bool :=
  (1 <=? month d) && (month d <=? 12) &&
  (1 <=? day d) && (day d <=? days_in_month s (year d) (month d)) &&
  (0 <=? hour d)%float && (hour d <? 24)%float.

(** Calendar date order: lexicographic on year, month, day, hour. *)
Definition date_ltb (d1 d2 : CalendarDate) : bool :=
  (year d1 <? year d2) ||
  ((year d1 =? year d2) &&
   ((month d1 <? month d2) ||
    ((month d1 =? month d2) &&
     ((day d1 <? day d2) ||
      ((day d1 =? day d2) && (hour d1 <? hour d2)%float))))).

(** The tolerance of the round trip: 1e-9 days, and the same in hours. *)
#[warnings="-inexact-float"]
Definition tolerance_days : float := 1e-9%float.
Definition tolerance_hours : float := (24 * tolerance_days)%float.

(** Two doubles within the tolerance (in days). *)
Definition close_days (x y : float) : bool :=
  (abs (x - y) <=? tolerance_days)%float.

(** A date reconstructed within the tolerance: the integer fields agree
    and the hours differ by no more than the tolerance. *)
Definition same_date (d d' : CalendarDate) : bool :=
  (year d =? year d') && (month d =? month d') && (day d =? day d') &&
  (abs (hour d - hour d') <=? tolerance_hours)%float.

(** C++ [x == y] and [x < y] on the value a call returned; an exception
    compares to nothing. *)
Definition returns_eq (o : outcome float) (x : float) : bool :=
  match o with
  | Returned v => (v =? x)%float
  | Raised _ => false
  end.

Definition lt_outcome (o1 o2 : outcome float) : bool :=
  match o1, o2 with
  | Returned v1, Returned v2 => (v1 <? v2)%float
  | _, _ => false
  end.

(** The absolute difference of two returned values is [x]. *)
Definition differ_by (o1 o2 : outcome float) (x : float) : bool :=
  match o1, o2 with
  | Returned v1, Returned v2 => (abs (v2 - v1) =? x)%float
  | _, _ => false
  end.

(** The range of Julian Days the inverse is asked to be exact on: finite
    and within 5,000,000 days of the epoch. *)
Definition supported_jd (jd : float) : bool :=
  is_finite jd && (abs jd <=? 5000000)%float.

(** The dates of the scenarios. *)
Definition J2000 : CalendarDate := mkDate 2000 1 1 12%float.
Definition J2000_18h : CalendarDate := mkDate 2000 1 1 18%float.
Definition feb30_2023 : CalendarDate := mkDate 2023 2 30 0%float.
Definition oct4_1582 : CalendarDate := mkDate 1582 10 4 0%float.
Definition oct15_1582 : CalendarDate := mkDate 1582 10 15 0%float.
Definition jan1_2000 : CalendarDate := mkDate 2000 1 1 0%float.
Definition jan2_2000 : CalendarDate := mkDate 2000 1 2 0%float.

(** ** The properties of the conversion, as propositions *)

Section Properties.
Context {Heap : Type}.

(** toJulianDay is strictly increasing in calendar date order. *)
Definition strictly_monotone : Prop :=
  forall (this : RNSwephImpl) (h : Heap) (s : CalendarSystem)
         (d1 d2 : CalendarDate),
    valid_date d1 s = true -> valid_date d2 s = true ->
    date_ltb d1 d2 = true ->
    lt_outcome (result (toJulianDay this d1 s) h)
               (result (toJulianDay this d2 s) h) = true.

(** Two valid dates with the same Julian Day are the same date. *)
Definition injective_on_valid : Prop :=
  forall (this : RNSwephImpl) (h : Heap) (s : CalendarSystem)
         (d1 d2 : CalendarDate),
    valid_date d1 s = true -> valid_date d2 s = true ->
    result (toJulianDay this d1 s) h = result (toJulianDay this d2 s) h ->
    same_date d1 d2 = true.

(** Any candidate for the inverse conversion. *)
Variable fromJulianDay : float -> CalendarSystem -> Exec Heap CalendarDate.

(** fromJulianDay (toJulianDay (date, system), system) reconstructs
    date. *)
Definition round_trip_date : Prop :=
  forall (this : RNSwephImpl) (h : Heap) (d : CalendarDate)
         (s : CalendarSystem),
    valid_date d s = true ->
    exists jd h1 d' h2,
      toJulianDay this d s h = (Returned jd, h1) /\
      fromJulianDay jd s h1 = (Returned d', h2) /\
      same_date d d' = true.

(** toJulianDay (fromJulianDay (jd, system), system) is jd within the
    tolerance. *)
Definition round_trip_jd : Prop :=
  forall (this : RNSwephImpl) (h : Heap) (jd : float)
         (s : CalendarSystem),
    supported_jd jd = true ->
    exists d h1 jd' h2,
      fromJulianDay jd s h = (Returned d, h1) /\
      toJulianDay this d s h1 = (Returned jd', h2) /\
      close_days jd' jd = true.
End Properties.

Arguments strictly_monotone Heap : clear implicits.
Arguments injective_on_valid Heap : clear implicits.

(** ** Callers *)

(** The five doubles of one call. *)
Record julday_args : Set := mkArgs {
  arg_year : float;
  arg_month : float;
  arg_day : float;
  arg_hour : float;
  arg_gregflag : float
}.

(** [impl.swe_julday(a.year, a.month, a.day, a.hour, a.gregflag)] *)
Definition swe_julday_on {Heap : Type} (this : RNSwephImpl)
           (a : julday_args) : Exec Heap float :=
  swe_julday this (arg_year a) (arg_month a) (arg_day a) (arg_hour a)
             (arg_gregflag a).

(** One call after the other on the same object, the results collected in
    order: [for (a : l) out.push_back(impl.swe_julday(...));] *)
Fixpoint swe_julday_each {Heap : Type} (this : RNSwephImpl)
         (l : list julday_args) : Exec Heap (list float) :=
  match l with
  | nil => ret nil
  | cons a l' =>
      v <- swe_julday_on this a ;;
      vs <- swe_julday_each this l' ;;
      ret (cons v vs)
  end.

(** ** What a call of swe_julday does *)

(** The arguments reach the method as the doubles the scenarios name. *)
Example Z2double_2000 : Z2double 2000 = 2000%float.
Proof. reflexivity. Qed.

Example Z2double_negative : Z2double (-4712) = (-4712)%float.
Proof. reflexivity. Qed.

(** One run of the method: the value 0.0, the heap as it was. *)
Lemma swe_julday_run {Heap : Type} (this : RNSwephImpl)
      (y m d hr g : float) (h : Heap) :
  swe_julday this y m d hr g h = (Returned 0%float, h).
Proof. reflexivity. Qed.

Lemma toJulianDay_run {Heap : Type} (this : RNSwephImpl)
      (d : CalendarDate) (s : CalendarSystem) (h : Heap) :
  toJulianDay this d s h = (Returned 0%float, h).
Proof. unfold toJulianDay. apply swe_julday_run. Qed.

Lemma toJulianDay_result {Heap : Type} (this : RNSwephImpl)
      (d : CalendarDate) (s : CalendarSystem) (h : Heap) :
  result (toJulianDay this d s) h = Returned 0%float.
Proof. unfold result. now rewrite toJulianDay_run. Qed.

(** The constructor touches nothing either, so neither does
    [RNSwephImpl().swe_julday(...)]. *)
Lemma construct_then_call {Heap : Type} (y m d hr g : float) (h : Heap) :
  (this <- new_RNSwephImpl ;; swe_julday this y m d hr g) h
  = (Returned 0%float, h).
Proof. reflexivity. Qed.

(** Doubles that are not dates at all get the same answer. *)
Example swe_julday_nan :
  result (swe_julday mkRNSwephImpl nan infinity neg_infinity nan nan) tt
  = Returned 0%float.
Proof. reflexivity. Qed.

(** The returned zero is the positive one. *)
Lemma zero_is_not_neg_zero : 0%float <> (-0)%float.
Proof.
  intro H.
  apply (f_equal (fun x => (1 / x <? 0)%float)) in H.
  vm_compute in H. discriminate.
Qed.

Ltac run_call :=
  repeat first [ rewrite toJulianDay_result | rewrite toJulianDay_run
               | rewrite swe_julday_run ].

(** ** The known fixed points *)

(** C1: toJulianDay at year 2000, month 1, day 1, hour 12 under the
    Gregorian flag is stated to be 2451545.0.  The call returns 0.0, and
    0.0 == 2451545.0 is false. *)
Theorem toJulianDay_J2000_returns_zero :
  forall (Heap : Type) (this : RNSwephImpl) (h : Heap),
    result (toJulianDay this J2000 GREGORIAN) h = Returned 0%float /\
    returns_eq (result (toJulianDay this J2000 GREGORIAN) h) 2451545 = false.
Proof.
  intros Heap this h. run_call. split; reflexivity.
Qed.

(** C2: toJulianDay at year 2000, month 1, day 1, hour 18 under the
    Gregorian flag is stated to be 2451545.25.  The call returns 0.0: the
    hour leaves no trace in the result. *)
Theorem toJulianDay_18h_returns_zero :
  forall (Heap : Type) (this : RNSwephImpl) (h : Heap),
    result (toJulianDay this J2000_18h GREGORIAN) h = Returned 0%float /\
    returns_eq (result (toJulianDay this J2000_18h GREGORIAN) h) 2451545.25
    = false.
Proof.
  intros Heap this h. run_call. split; reflexivity.
Qed.

(** C6: 4 October 1582 (Julian) and 15 October 1582 (Gregorian), both at
    hour 0, are stated to be one day apart.  Both calls return 0.0: the
    two Julian Days differ by 0, not by 1. *)
Theorem calendar_transition_differs_by_zero :
  forall (Heap : Type) (this : RNSwephImpl) (h : Heap),
    differ_by (result (toJulianDay this oct4_1582 JULIAN) h)
              (result (toJulianDay this oct15_1582 GREGORIAN) h) 1 = false /\
    differ_by (result (toJulianDay this oct4_1582 JULIAN) h)
              (result (toJulianDay this oct15_1582 GREGORIAN) h) 0 = true.
Proof.
  intros Heap this h. run_call. split; reflexivity.
Qed.

(** ** Errors *)

(** No call of the method ends in an exception, whatever the doubles. *)
Lemma swe_julday_returns {Heap : Type} (this : RNSwephImpl)
      (y m d hr g : float) (h : Heap) (e : exception) :
  result (swe_julday this y m d hr g) h <> Raised e.
Proof. unfold result. rewrite swe_julday_run. discriminate. Qed.

(** C3, as the claim states it: 30 February 2023 is out of range, and it is
    stated to fail with InvalidDateError.  The call does not. *)
Lemma feb30_is_not_rejected :
  valid_date feb30_2023 GREGORIAN = false /\
  result (toJulianDay mkRNSwephImpl feb30_2023 GREGORIAN) tt
  <> Raised InvalidDateError.
Proof.
  split; [ reflexivity | ].
  rewrite toJulianDay_result. discriminate.
Qed.

(** C3, amended: toJulianDay at year 2023, month 2, day 30, hour 0 under
    the Gregorian flag is not rejected.  swe_julday checks nothing and has
    no error path: for this date as for every date, in range or not, the
    call completes and returns a double, and no exception is raised. *)
Theorem toJulianDay_never_raises :
  forall (Heap : Type) (this : RNSwephImpl) (h : Heap),
    (exists jd : float,
        result (toJulianDay this feb30_2023 GREGORIAN) h = Returned jd) /\
    (forall (d : CalendarDate) (s : CalendarSystem),
        (exists jd : float, result (toJulianDay this d s) h = Returned jd) /\
        (forall e : exception, result (toJulianDay this d s) h <> Raised e)).
Proof.
  intros Heap this h.
  assert (G : forall d s,
             (exists jd : float, result (toJulianDay this d s) h = Returned jd) /\
             (forall e, result (toJulianDay this d s) h <> Raised e)).
  { intros d s. split.
    - exists 0%float. apply toJulianDay_result.
    - intro e. unfold toJulianDay. apply swe_julday_returns. }
  split; [ apply G | exact G ].
Qed.

(** ** Order *)

(** No Julian Day the method returns is below another one. *)
Lemma toJulianDay_never_lt {Heap : Type} (this : RNSwephImpl) (h : Heap)
      (s : CalendarSystem) (d1 d2 : CalendarDate) :
  lt_outcome (result (toJulianDay this d1 s) h)
             (result (toJulianDay this d2 s) h) = false.
Proof. run_call. reflexivity. Qed.

(** C4: toJulianDay is stated to be strictly increasing in calendar date
    order.  1 January 2000 and 2 January 2000 are valid Gregorian dates,
    the first earlier than the second, and the Julian Day of the first is
    not below that of the second; so the conversion is not strictly
    monotone. *)
Theorem toJulianDay_not_strictly_monotone :
  forall (Heap : Type) (this : RNSwephImpl) (h : Heap),
    (valid_date jan1_2000 GREGORIAN = true /\
     valid_date jan2_2000 GREGORIAN = true /\
     date_ltb jan1_2000 jan2_2000 = true /\
     lt_outcome (result (toJulianDay this jan1_2000 GREGORIAN) h)
                (result (toJulianDay this jan2_2000 GREGORIAN) h) = false) /\
    ~ strictly_monotone Heap.
Proof.
  intros Heap this h.
  assert (V1 : valid_date jan1_2000 GREGORIAN = true) by reflexivity.
  assert (V2 : valid_date jan2_2000 GREGORIAN = true) by reflexivity.
  assert (L : date_ltb jan1_2000 jan2_2000 = true) by reflexivity.
  split.
  - split; [ exact V1 | split; [ exact V2 | split; [ exact L | ] ] ].
    apply toJulianDay_never_lt.
  - intro M.
    specialize (M this h GREGORIAN jan1_2000 jan2_2000 V1 V2 L).
    rewrite toJulianDay_never_lt in M. discriminate.
Qed.

(** ** Round trip *)

(** What [same_date] says of the day fields. *)
Lemma same_date_day (d d' : CalendarDate) :
  same_date d d' = true -> day d = day d'.
Proof.
  unfold same_date. intro H.
  apply andb_true_iff in H. destruct H as [H _].
  apply andb_true_iff in H. destruct H as [_ H].
  now apply Z.eqb_eq.
Qed.

(** A constant conversion cannot tell two days apart. *)
Lemma toJulianDay_not_injective {Heap : Type} (h : Heap) :
  ~ injective_on_valid Heap.
Proof.
  intro I.
  assert (S : same_date jan1_2000 jan2_2000 = true).
  { apply (I mkRNSwephImpl h GREGORIAN).
    - reflexivity.
    - reflexivity.
    - now rewrite !toJulianDay_result. }
  apply same_date_day in S. discriminate.
Qed.

(** C5: the forward and inverse conversions are stated to be mutually
    inverse and the forward one a bijection on valid dates.  Whatever the
    inverse is, none of the three holds: no function recovers both
    1 January 2000 and 2 January 2000 from the Julian Day they share, the
    Julian Day 2451545.0 does not come back within 1e-9 days, and
    toJulianDay is not injective on valid dates. *)
Theorem toJulianDay_has_no_inverse :
  forall (Heap : Type) (h : Heap)
         (fromJulianDay : float -> CalendarSystem -> Exec Heap CalendarDate),
    ~ round_trip_date fromJulianDay /\
    ~ round_trip_jd fromJulianDay /\
    ~ injective_on_valid Heap.
Proof.
  intros Heap h fromJulianDay. split; [ | split ].
  - intro R.
    destruct (R mkRNSwephImpl h jan1_2000 GREGORIAN eq_refl)
      as (jd1 & h1 & a & ha & T1 & F1 & S1).
    destruct (R mkRNSwephImpl h jan2_2000 GREGORIAN eq_refl)
      as (jd2 & h2 & b & hb & T2 & F2 & S2).
    rewrite toJulianDay_run in T1, T2.
    injection T1 as <- <-. injection T2 as <- <-.
    rewrite F1 in F2. injection F2 as <- <-.
    apply same_date_day in S1. apply same_date_day in S2.
    rewrite <- S1 in S2. discriminate.
  - intro R.
    destruct (R mkRNSwephImpl h 2451545%float GREGORIAN eq_refl)
      as (d & h1 & jd' & h2 & _ & T & C).
    rewrite toJulianDay_run in T. injection T as <- <-.
    vm_compute in C. discriminate.
  - apply toJulianDay_not_injective. exact h.
Qed.

(** ** Totality on valid input *)

(** C7: for every valid input (month in [1,12], day valid for the month
    and year under the system, hour in [0,24), any integer year),
    toJulianDay returns a finite double and raises no exception. *)
Theorem toJulianDay_finite_on_valid :
  forall (Heap : Type) (this : RNSwephImpl) (h : Heap)
         (d : CalendarDate) (s : CalendarSystem),
    valid_date d s = true ->
    (exists jd : float,
        result (toJulianDay this d s) h = Returned jd /\
        is_finite jd = true) /\
    (forall e : exception, result (toJulianDay this d s) h <> Raised e).
Proof.
  intros Heap this h d s _. split.
  - exists 0%float. split; [ apply toJulianDay_result | reflexivity ].
  - intro e. unfold toJulianDay. apply swe_julday_returns.
Qed.

(** The J2000.0 date is such a valid input. *)
Lemma toJulianDay_finite_on_valid_J2000 :
  valid_date J2000 GREGORIAN = true /\
  (exists jd : float,
      result (toJulianDay mkRNSwephImpl J2000 GREGORIAN) tt = Returned jd /\
      is_finite jd = true) /\
  (forall e : exception,
      result (toJulianDay mkRNSwephImpl J2000 GREGORIAN) tt <> Raised e).
Proof.
  split; [ reflexivity | ].
  apply (toJulianDay_finite_on_valid unit mkRNSwephImpl tt J2000 GREGORIAN).
  reflexivity.
Defined.

(** ** Purity *)

(** C8: swe_julday is a pure, deterministic function.  A call leaves the
    heap as it found it (no side effect, nothing written); its result does
    not depend on the heap or on the receiver (nothing read); and two
    invocations with identical arguments, one after the other, return
    identical results. *)
Theorem swe_julday_pure :
  forall (Heap : Type) (this this' : RNSwephImpl)
         (y m d hr g : float) (h h' : Heap),
    final (swe_julday this y m d hr g) h = h /\
    result (swe_julday this y m d hr g) h
    = result (swe_julday this' y m d hr g) h' /\
    exists v : float,
      (a <- swe_julday this y m d hr g ;;
       b <- swe_julday this y m d hr g ;;
       ret (a, b)) h = (Returned (v, v), h).
Proof.
  intros Heap this this' y m d hr g h h'.
  split; [ reflexivity | split; [ reflexivity | ] ].
  exists 0%float. reflexivity.
Qed.

(** ** The method as a constant *)

(** C10: swe_julday is a constant function: for every combination of
    arguments, out of range, negative or not finite, it returns exactly 0.0
    and signals no error, and no argument influences the result. *)
Theorem swe_julday_constant_zero :
  forall (Heap : Type) (this : RNSwephImpl)
         (y m d hr g : float) (h : Heap),
    result (swe_julday this y m d hr g) h = Returned 0%float /\
    (forall e : exception, result (swe_julday this y m d hr g) h <> Raised e) /\
    (forall y' m' d' hr' g' : float,
        result (swe_julday this y' m' d' hr' g') h
        = result (swe_julday this y m d hr g) h).
Proof.
  intros Heap this y m d hr g h.
  split; [ reflexivity | split ].
  - intro e. apply swe_julday_returns.
  - intros. reflexivity.
Qed.

(** ** The constructor, and calls in sequence *)


(** X2: any number of calls made one after the other, whatever their
    arguments, leave the heap as it was and return one 0.0 per call: the
    results carry nothing of the arguments but their count. *)
Theorem swe_julday_each_zeros :
  forall (Heap : Type) (this : RNSwephImpl) (l : list julday_args) (h : Heap),
    swe_julday_each this l h = (Returned (repeat 0%float (length l)), h).
Proof.
  intros Heap this l h. induction l as [ | a l IH ]; simpl.
  - reflexivity.
  - unfold bind at 1. unfold swe_julday_on. rewrite swe_julday_run.
    unfold bind. rewrite IH. reflexivity.
Qed.
